(** * Hyperception: a hypertunable adaptation of Xception

    Shallow embedding of
    [kerastuner/applications/hyperception/hyperception.py].

    The module reads hyperparameters from a Python [dict], calls layer
    constructors of the deep-learning framework in a fixed order and compiles
    the resulting model.  The framework objects are kept symbolic: a tensor is
    the chain of layer calls that produced it, an optimizer is the constructor
    call that made it.  Everything the module itself decides (dictionary
    merge, key lookups, [range], [*=], string comparisons, the [raise]) is
    executable. *)

From Stdlib Require Import ZArith String List PrimFloat.
From stdpp Require Import gmap strings.

Local Open Scope string_scope.
Local Open Scope list_scope.
Set Warnings "-register-all".

(** ** Python values *)

(** The values a hyperparameter mapping holds: numbers, strings, tuples,
    booleans and [None].  Python [int] is unbounded ([Z]); Python [float] is
    an IEEE binary64 number ([PrimFloat.float]). *)
Inductive value : Type :=
| VNone
| VBool (b : bool)
| VInt (z : Z)
| VFloat (f : float)
| VStr (s : string)
| VTuple (items : list value).

(** A Python [dict] with string keys, as [**hparams] and [hp] are. *)
Abbreviation dict := (gmap string value).

(** [type(v).__name__] *)
Definition type_name (v : value) : string :=
  match v with
  | VNone => "NoneType"
  | VBool _ => "bool"
  | VInt _ => "int"
  | VFloat _ => "float"
  | VStr _ => "str"
  | VTuple _ => "tuple"
  end.

(** ** Exceptions and the error monad *)

Inductive exn : Type :=
| KeyError (key : string)
| TypeError (msg : string)
| ValueError (args : list value).

Inductive result (A : Type) : Type :=
| Ok (a : A)
| Raise (e : exn).
Arguments Ok {A} a.
Arguments Raise {A} e.

Definition bind {A B : Type} (r : result A) (k : A -> result B) : result B :=
  match r with
  | Ok a => k a
  | Raise e => Raise e
  end.

Notation "x <- e ;; k" := (bind e (fun x => k))
  (at level 20, e at level 99, k at level 200, right associativity).
Notation "' pat <- e ;; k" := (bind e (fun x => match x with pat => k end))
  (at level 20, pat pattern, e at level 99, k at level 200,
   right associativity).

(** An exception is explicit when the module raises it with a [raise]
    statement of its own; [KeyError] comes from [hp[key]] and [TypeError]
    from the interpreter ([range], [*=], argument binding). *)
Definition explicit (e : exn) : bool :=
  match e with
  | ValueError _ => true
  | KeyError _ | TypeError _ => false
  end.

(** The exception reports [v] when [v] is among its arguments. *)
Definition reports (e : exn) (v : value) : Prop :=
  match e with
  | ValueError args => In v args
  | KeyError _ | TypeError _ => False
  end.

(** ** The Python operations the module uses *)

(** [hp[key]] *)
Definition getitem (hp : dict) (key : string) : result value :=
  match hp !! key with
  | Some v => Ok v
  | None => Raise (KeyError key)
  end.

(** [d.update(other)]: the entries of [other] overwrite those of [d]. *)
Definition update (d other : dict) : dict := other ∪ d.

(** Truth value of a dict: [if hparams:] holds when it is not empty. *)
Definition truthy (d : dict) : bool := negb (Nat.eqb (size d) 0).

(** [v == s] for a string literal [s]: a value that is not a string is
    different from every string. *)
Definition eq_str (v : value) (s : string) : bool :=
  match v with
  | VStr t => String.eqb t s
  | _ => false
  end.

(** Number of iterations of [for _ in range(v)]: [range] takes an [int]
    ([bool] is one) and is empty for a negative bound. *)
Definition range (v : value) : result nat :=
  match v with
  | VInt z => Ok (Z.to_nat z)
  | VBool b => Ok (if b then 1 else 0)%nat
  | _ => Raise (TypeError
           ("'" +:+ type_name v +:+ "' object cannot be interpreted as an integer"))
  end.

(** [v *= 2]: numbers are doubled, sequences are repeated. *)
Definition imul2 (v : value) : result value :=
  match v with
  | VInt z => Ok (VInt (z * 2))
  | VBool b => Ok (VInt (Z.b2z b * 2))
  | VFloat f => Ok (VFloat (PrimFloat.mul f 2%float))
  | VStr s => Ok (VStr (s +:+ s))
  | VTuple items => Ok (VTuple (items ++ items))
  | VNone => Raise (TypeError
               "unsupported operand type(s) for *=: 'NoneType' and 'int'")
  end.

(** ** Framework objects, kept symbolic *)

(** One node of the layer graph.  [conv], [residual] and [dense] are the
    helpers of [kerastuner.applications.hyperception.blocks]; the others are
    [keras.Input] and members of [keras.layers].  Each node records the
    arguments of the call that made it. *)
Inductive layer : Type :=
| Input (shape : value)
| conv (dims kernel_size activation strides : value)
| residual (dims activation : value) (max_pooling : bool)
| Flatten
| GlobalAveragePooling2D
| GlobalMaxPooling2D
| dense (units activation batchnorm dropout_rate : value)
| Dense (units : value) (activation : string).

(** A symbolic tensor: the layer calls that produced it, oldest first. *)
Definition tensor := list layer.

(** [x = l(x)] *)
Definition call (l : layer) (x : tensor) : tensor := x ++ [l].

Inductive optimizer_obj : Type :=
| Adam (lr : value)
| SGD (lr momentum decay : value)
| RMSprop (lr decay : value).

(** [keras.Model]: a new model is not compiled; [compile] binds the
    optimizer, the loss and the metrics. *)
Record model : Type := Model_ {
  inputs : tensor;
  outputs : tensor;
  m_optimizer : option optimizer_obj;
  m_loss : option string;
  m_metrics : list string
}.

Definition Model (inputs output : tensor) : model :=
  Model_ inputs output None None [].

Definition compile (m : model) (optimizer : optimizer_obj) (loss : string)
    (metrics : list string) : model :=
  Model_ (inputs m) (outputs m) (Some optimizer) (Some loss) metrics.

(** ** Calls with keyword arguments *)

Definition has_key (d : dict) (key : string) : bool :=
  match d !! key with
  | Some _ => true
  | None => false
  end.

(** The keyword dictionary of a call [f(k1=v1, k2=v2, **star)]: a key given
    both by name and in [star] is rejected at the call site. *)
Definition keyword_call (named : list (string * value)) (star : dict)
    : result dict :=
  if existsb (fun kv => has_key star kv.1) named
  then Raise (TypeError "got multiple values for keyword argument")
  else Ok (foldr (fun kv d => <[kv.1 := kv.2]> d) star named).

(** Binding a named parameter that received no positional argument: it takes
    the keyword of its name, else its default value, else the call fails.
    The keyword is consumed. *)
Definition take_keyword (kwargs : dict) (name : string)
    (default : option value) : result (value * dict) :=
  match kwargs !! name, default with
  | Some v, _ => Ok (v, delete name kwargs)
  | None, Some v => Ok (v, kwargs)
  | None, None => Raise (TypeError "missing required positional argument")
  end.

(** Binding a named parameter that received a positional argument: a keyword
    of the same name is then an error. *)
Definition no_keyword (kwargs : dict) (name : string) : result unit :=
  if has_key kwargs name
  then Raise (TypeError "got multiple values for argument")
  else Ok tt.

(** A callable that returns a model, called with positional and keyword
    arguments. *)
Definition pyfun := list value -> dict -> result model.

(** [functools.partial(func, *args, **keywords)] *)
Record partial : Type := Partial {
  func : pyfun;
  args : list value;
  keywords : dict
}.

(** Calling the partial object with positional arguments [fargs] and keywords
    [fkeywords]: the stored positional arguments come first and the keywords
    of the call overwrite the stored ones. *)
Definition partial_call (p : partial) (fargs : list value) (fkeywords : dict)
    : result model :=
  func p (args p ++ fargs) (update (keywords p) fkeywords).

(** ** The module *)

(** The eleven hyperparameters read at lines 69-91, under the names of the
    local variables that hold them. *)
Record params : Type := Params {
  kernel_size : value;
  initial_strides : value;
  activation : value;
  optimizer : value;
  conv2d_num_filters : value;
  sep_num_filters : value;
  num_residual_blocks : value;
  dense_merge_type : value;
  num_dense_layers : value;
  dropout_rate : value;
  dense_use_bn : value
}.

(** Lines 69-91: the lookups, in the order of the source. *)
Definition read_hparams (hp : dict) : result params :=
  kernel_size <- getitem hp "kernel_size" ;;
  initial_strides <- getitem hp "initial_strides" ;;
  activation <- getitem hp "activation" ;;
  optimizer <- getitem hp "optimizer" ;;
  conv2d_num_filters <- getitem hp "conv2d_num_filters" ;;
  sep_num_filters <- getitem hp "sep_num_filters" ;;
  num_residual_blocks <- getitem hp "num_residual_blocks" ;;
  dense_merge_type <- getitem hp "dense_merge_type" ;;
  num_dense_layers <- getitem hp "num_dense_layers" ;;
  dropout_rate <- getitem hp "dropout_rate" ;;
  dense_use_bn <- getitem hp "dense_use_bn" ;;
  Ok (Params kernel_size initial_strides activation optimizer
        conv2d_num_filters sep_num_filters num_residual_blocks
        dense_merge_type num_dense_layers dropout_rate dense_use_bn).

(** Lines 95-124: the layer graph. *)
Definition build_graph (input_shape num_classes : value) (p : params)
    : result model :=
  let inputs := [Input input_shape] in
  let x := inputs in
  (* Initial conv2d *)
  let dims := conv2d_num_filters p in
  let x := call (conv dims (kernel_size p) (activation p) (initial_strides p)) x in
  (* separable convs *)
  let dims := sep_num_filters p in
  n <- range (num_residual_blocks p) ;;
  let x := Nat.iter n (call (residual dims (activation p) false)) x in
  (* Exit *)
  dims <- imul2 dims ;;
  let x := call (residual dims (activation p) true) x in
  let x :=
    if eq_str (dense_merge_type p) "flatten" then call Flatten x
    else if eq_str (dense_merge_type p) "avg" then call GlobalAveragePooling2D x
    else call GlobalMaxPooling2D x in
  (* Dense *)
  m <- range (num_dense_layers p) ;;
  let x := Nat.iter m
             (call (dense num_classes (activation p) (dense_use_bn p)
                      (dropout_rate p))) x in
  let output := call (Dense num_classes "softmax") x in
  Ok (Model inputs output).

(** Lines 126-139: the optimizer. *)
Definition select_optimizer (hp : dict) (optimizer : value)
    : result optimizer_obj :=
  if eq_str optimizer "adam" then
    lr <- getitem hp "learning_rate" ;;
    Ok (Adam lr)
  else if eq_str optimizer "sgd" then
    lr <- getitem hp "learning_rate" ;;
    momentum <- getitem hp "momentum" ;;
    decay <- getitem hp "learning_rate_decay" ;;
    Ok (SGD lr momentum decay)
  else if eq_str optimizer "rmsprop" then
    lr <- getitem hp "learning_rate" ;;
    decay <- getitem hp "learning_rate_decay" ;;
    Ok (RMSprop lr decay)
  else Raise (ValueError [VStr "Optimizer '%s' not supported"; optimizer]).

(** Lines 66-146: what [_hyperception] does once [hp] is resolved. *)
Definition build (input_shape num_classes : value) (hp : dict)
    : result model :=
  p <- read_hparams hp ;;
  model <- build_graph input_shape num_classes p ;;
  optimizer <- select_optimizer hp (optimizer p) ;;
  Ok (compile model optimizer "categorical_crossentropy" ["accuracy"]).

(** ** The top level of the module *)

(** The statements a module body is made of.  Loading a module runs them in
    order: an import and a [def] only bind names, an expression statement
    calls the function it names. *)
Inductive statement : Type :=
| Import (module name : string)
| ImportFrom (module : string) (names : list string)
| FunctionDef (name : string)
| Expr (callee : string).

Record loaded : Type := Loaded {
  bound : list string;
  functions : list string;
  invocations : list string
}.

Definition exec (st : loaded) (stmt : statement) : loaded :=
  match stmt with
  | Import _ name => Loaded (bound st ++ [name]) (functions st) (invocations st)
  | ImportFrom _ names =>
      Loaded (bound st ++ names) (functions st) (invocations st)
  | FunctionDef name =>
      Loaded (bound st ++ [name]) (functions st ++ [name]) (invocations st)
  | Expr callee => Loaded (bound st) (functions st) (invocations st ++ [callee])
  end.

Definition load (body : list statement) : loaded :=
  fold_left exec body (Loaded [] [] []).

(** The top-level statements of [hyperception.py], lines 1-158. *)
Definition hyperception_py : list statement :=
  [ Import "copy" "copy";
    Import "functools" "functools";
    Import "tensorflow" "tf";
    Import "tensorflow.keras" "keras";
    ImportFrom "tensorflow.keras" ["layers"];
    ImportFrom "tensorflow.keras.callbacks" ["EarlyStopping"; "ModelCheckpoint"];
    ImportFrom "tensorflow.keras.layers" ["*"];
    ImportFrom "tensorflow.keras.models" ["Model"];
    ImportFrom "tensorflow.keras.optimizers" ["SGD"; "Adam"; "RMSprop"];
    ImportFrom "tensorflow.keras.utils" ["to_categorical"];
    ImportFrom "kerastuner.applications.hyperception.blocks"
      ["sep_conv"; "conv"; "dense"; "residual"];
    ImportFrom "kerastuner.applications.hyperception.hparams"
      ["default_fixed_hparams"; "default_hparams"];
    FunctionDef "hyperception";
    FunctionDef "hyperception_single_fn";
    FunctionDef "hyperception_single_model";
    FunctionDef "_hyperception";
    FunctionDef "_hyperception_single" ].

(** ** Observers of the layer graph *)

Definition is_residual (l : layer) : bool :=
  match l with
  | residual _ _ _ => true
  | _ => false
  end.

Definition is_reduction (l : layer) : bool :=
  match l with
  | Flatten | GlobalAveragePooling2D | GlobalMaxPooling2D => true
  | _ => false
  end.

Definition is_dense_block (l : layer) : bool :=
  match l with
  | dense _ _ _ _ => true
  | _ => false
  end.

(** Lines 112-117: the layer the merge step applies. *)
Definition reduction (dense_merge_type : value) : layer :=
  if eq_str dense_merge_type "flatten" then Flatten
  else if eq_str dense_merge_type "avg" then GlobalAveragePooling2D
  else GlobalMaxPooling2D.

(** The layer chain of lines 95-123 for [n] residual blocks, exit filter
    count [d] and [k] dense blocks. *)
Definition chain (input_shape num_classes : value) (p : params) (n : nat)
    (d : value) (k : nat) : tensor :=
  [Input input_shape;
   conv (conv2d_num_filters p) (kernel_size p) (activation p)
     (initial_strides p)]
  ++ repeat (residual (sep_num_filters p) (activation p) false) n
  ++ [residual d (activation p) true; reduction (dense_merge_type p)]
  ++ repeat (dense num_classes (activation p) (dense_use_bn p)
               (dropout_rate p)) k
  ++ [Dense num_classes "softmax"].

(** The optimizer strings the module knows. *)
Definition supported (o : value) : Prop :=
  o = VStr "adam" \/ o = VStr "sgd" \/ o = VStr "rmsprop".

(** The exception of line 139.  The format string is not interpolated: the
    offending value travels as the second argument of the exception. *)
Definition unsupported_error (o : value) : exn :=
  ValueError [VStr "Optimizer '%s' not supported"; o].

(** Modelled from the spec: what the mapping of [default_hparams] (module
    [kerastuner.applications.hyperception.hparams], imported and not part of
    this module) has to supply.  Section 4.1 lists the keys; the two block
    counts and the filter count are integers, and the optimizer is one of
    the supported three together with the sub-parameters it needs. *)
Definition usable (hp : dict) : Prop :=
  Forall (fun key => is_Some (hp !! key))
    ["kernel_size"; "initial_strides"; "activation"; "optimizer";
     "conv2d_num_filters"; "sep_num_filters"; "num_residual_blocks";
     "dense_merge_type"; "num_dense_layers"; "dropout_rate"; "dense_use_bn";
     "learning_rate"] /\
  (exists z, hp !! "sep_num_filters" = Some (VInt z)) /\
  (exists z, hp !! "num_residual_blocks" = Some (VInt z)) /\
  (exists z, hp !! "num_dense_layers" = Some (VInt z)) /\
  (hp !! "optimizer" = Some (VStr "adam") \/
   (hp !! "optimizer" = Some (VStr "sgd") /\
    is_Some (hp !! "momentum") /\ is_Some (hp !! "learning_rate_decay")) \/
   (hp !! "optimizer" = Some (VStr "rmsprop") /\
    is_Some (hp !! "learning_rate_decay"))).

(** Modelled from the spec: an example of such a default mapping, with one
    value for each key of section 4.1. *)
Definition example_hparams : dict :=
  list_to_map
    [ ("kernel_size", VTuple [VInt 3; VInt 3]);
      ("initial_strides", VTuple [VInt 2; VInt 2]);
      ("activation", VStr "relu");
      ("optimizer", VStr "adam");
      ("conv2d_num_filters", VInt 64);
      ("sep_num_filters", VInt 128);
      ("num_residual_blocks", VInt 3);
      ("dense_merge_type", VStr "avg");
      ("num_dense_layers", VInt 2);
      ("dropout_rate", VFloat 0.5);
      ("dense_use_bn", VBool true);
      ("learning_rate", VFloat 0.125);
      ("momentum", VFloat 0.875);
      ("learning_rate_decay", VFloat 0.25) ].

Definition example_defaults (input_shape num_classes : value) : dict :=
  example_hparams.

Definition example_shape : value := VTuple [VInt 32; VInt 32; VInt 3].

(** What the lookups of lines 69-91 read in [example_hparams], the graph
    assembled from it for ten classes, and the compiled model. *)
Definition example_params : params :=
  Params (VTuple [VInt 3; VInt 3]) (VTuple [VInt 2; VInt 2]) (VStr "relu")
    (VStr "adam") (VInt 64) (VInt 128) (VInt 3) (VStr "avg") (VInt 2)
    (VFloat 0.5) (VBool true).

Definition example_graph : model :=
  Model [Input example_shape]
    (chain example_shape (VInt 10) example_params 3 (VInt 256) 2).

Definition example_model : model :=
  compile example_graph (Adam (VFloat 0.125)) "categorical_crossentropy"
    ["accuracy"].

(** The same with the optimizer overridden by an unknown string. *)
Definition example_override : dict := {[ "optimizer" := VStr "xyz" ]}.

Definition example_params_xyz : params :=
  Params (VTuple [VInt 3; VInt 3]) (VTuple [VInt 2; VInt 2]) (VStr "relu")
    (VStr "xyz") (VInt 64) (VInt 128) (VInt 3) (VStr "avg") (VInt 2)
    (VFloat 0.5) (VBool true).

(** Further example inputs: default mappings that lack a key, fixed defaults
    that hold a reserved key, and what the lookups read under two
    overrides. *)
Definition example_no_activation (input_shape num_classes : value) : dict :=
  delete "activation" example_hparams.

Definition example_no_momentum (input_shape num_classes : value) : dict :=
  delete "momentum" example_hparams.

Definition example_reserved_fixed (input_shape num_classes : value) : dict :=
  <["num_classes" := num_classes]> example_hparams.


Definition example_params_sgd : params :=
  Params (VTuple [VInt 3; VInt 3]) (VTuple [VInt 2; VInt 2]) (VStr "relu")
    (VStr "sgd") (VInt 64) (VInt 128) (VInt 3) (VStr "avg") (VInt 2)
    (VFloat 0.5) (VBool true).

(** ** The keys the builder consumes *)

(** The keys of lines 69-91, in the order in which they are looked up. *)
Definition required_keys : list string :=
  ["kernel_size"; "initial_strides"; "activation"; "optimizer";
   "conv2d_num_filters"; "sep_num_filters"; "num_residual_blocks";
   "dense_merge_type"; "num_dense_layers"; "dropout_rate"; "dense_use_bn"].

(** The keys the branch of lines 126-139 taken for [o] looks up, in order. *)
Definition optimizer_keys (o : value) : list string :=
  if eq_str o "adam" then ["learning_rate"]
  else if eq_str o "sgd" then
    ["learning_rate"; "momentum"; "learning_rate_decay"]
  else if eq_str o "rmsprop" then ["learning_rate"; "learning_rate_decay"]
  else [].

(** Every key some run of the builder can look up. *)
Definition consumed_keys : list string :=
  required_keys ++ ["learning_rate"; "momentum"; "learning_rate_decay"].

(** The first of a list of keys that [hp] does not hold. *)
Definition first_missing (hp : dict) (keys : list string) : option string :=
  find (fun key => negb (has_key hp key)) keys.



Section Hyperception.

(** The providers of [kerastuner.applications.hyperception.hparams]; the
    module imports them and their code is not part of it. *)
Variable default_hparams : value -> value -> dict.
Variable default_fixed_hparams : value -> value -> dict.

(** Lines 61-64: the resolved hyperparameter mapping. *)
Definition resolve_hparams (input_shape num_classes : value) (hparams : dict)
    : dict :=
  let hp : dict := ∅ in
  let hp := update hp (default_hparams input_shape num_classes) in
  if truthy hparams then update hp hparams else hp.

(** [_hyperception(input_shape, num_classes, **hparams)], lines 57-146. *)
Definition _hyperception (input_shape num_classes : value) (hparams : dict)
    : result model :=
  let hp := resolve_hparams input_shape num_classes hparams in
  build input_shape num_classes hp.

(** [_hyperception] as a callable: the two named parameters are taken from
    the positional arguments, else from the keywords; what is left of the
    keywords is [**hparams]. *)
Definition _hyperception_fn : pyfun := fun args kwargs =>
  match args with
  | [] =>
      '(input_shape, kwargs) <- take_keyword kwargs "input_shape" None ;;
      '(num_classes, kwargs) <- take_keyword kwargs "num_classes" None ;;
      _hyperception input_shape num_classes kwargs
  | [input_shape] =>
      _ <- no_keyword kwargs "input_shape" ;;
      '(num_classes, kwargs) <- take_keyword kwargs "num_classes" None ;;
      _hyperception input_shape num_classes kwargs
  | [input_shape; num_classes] =>
      _ <- no_keyword kwargs "input_shape" ;;
      _ <- no_keyword kwargs "num_classes" ;;
      _hyperception input_shape num_classes kwargs
  | _ => Raise (TypeError "too many positional arguments")
  end.

(** [hyperception(input_shape, num_classes, **hparams)], lines 17-30. *)
Definition hyperception (input_shape num_classes : value) (hparams : dict)
    : partial :=
  Partial _hyperception_fn [input_shape; num_classes] hparams.

(** [_hyperception_single(input_shape, num_classes, mode="full", **hparams)],
    lines 149-158. *)
Definition _hyperception_single (input_shape num_classes mode : value)
    (hparams : dict) : result model :=
  let hp := default_fixed_hparams input_shape num_classes in
  let hp := update hp hparams in
  kwargs <- keyword_call
              [("input_shape", input_shape); ("num_classes", num_classes)] hp ;;
  _hyperception_fn [] kwargs.

(** [_hyperception_single] as a callable: [mode] is a named parameter with
    the default ["full"], so a keyword [mode] never reaches [**hparams]. *)
Definition _hyperception_single_fn : pyfun := fun args kwargs =>
  match args with
  | [] =>
      '(input_shape, kwargs) <- take_keyword kwargs "input_shape" None ;;
      '(num_classes, kwargs) <- take_keyword kwargs "num_classes" None ;;
      '(mode, kwargs) <- take_keyword kwargs "mode" (Some (VStr "full")) ;;
      _hyperception_single input_shape num_classes mode kwargs
  | [input_shape] =>
      _ <- no_keyword kwargs "input_shape" ;;
      '(num_classes, kwargs) <- take_keyword kwargs "num_classes" None ;;
      '(mode, kwargs) <- take_keyword kwargs "mode" (Some (VStr "full")) ;;
      _hyperception_single input_shape num_classes mode kwargs
  | [input_shape; num_classes] =>
      _ <- no_keyword kwargs "input_shape" ;;
      _ <- no_keyword kwargs "num_classes" ;;
      '(mode, kwargs) <- take_keyword kwargs "mode" (Some (VStr "full")) ;;
      _hyperception_single input_shape num_classes mode kwargs
  | [input_shape; num_classes; mode] =>
      _ <- no_keyword kwargs "input_shape" ;;
      _ <- no_keyword kwargs "num_classes" ;;
      _ <- no_keyword kwargs "mode" ;;
      _hyperception_single input_shape num_classes mode kwargs
  | _ => Raise (TypeError "too many positional arguments")
  end.

(** [hyperception_single_fn(input_shape, num_classes, **hparams)],
    lines 33-46. *)
Definition hyperception_single_fn (input_shape num_classes : value)
    (hparams : dict) : partial :=
  Partial _hyperception_single_fn [input_shape; num_classes] hparams.

(** [hyperception_single_model(input_shape, num_classes, **hparams)],
    lines 49-54.  The two [print] calls write to the standard output, which
    is not part of the model. *)
Definition hyperception_single_model (input_shape num_classes : value)
    (hparams : dict) : result model :=
  let model_fn := hyperception_single_fn input_shape num_classes hparams in
  i <- partial_call model_fn [] ∅ ;;
  Ok i.


(** ** Properties *)

Lemma iter_call (n : nat) (l : layer) (x : tensor) :
  Nat.iter n (call l) x = x ++ repeat l n.
Proof using Type.
  induction n as [|n IH]; simpl.
  - now rewrite app_nil_r.
  - rewrite IH. unfold call. rewrite <- app_assoc. f_equal.
    symmetry. apply repeat_cons.
Qed.

Lemma bind_Ok {A B : Type} (r : result A) (k : A -> result B) (b : B) :
  bind r k = Ok b -> exists a, r = Ok a /\ k a = Ok b.
Proof using Type. destruct r as [a|e]; simpl; [eauto | discriminate]. Qed.

Lemma bind_Raise {A B : Type} (r : result A) (k : A -> result B) (e : exn) :
  bind r k = Raise e -> r = Raise e \/ exists a, r = Ok a /\ k a = Raise e.
Proof using Type.
  destruct r as [a|e']; simpl; intros H.
  - right. eauto.
  - left. congruence.
Qed.

Lemma eq_str_true (v : value) (s : string) : eq_str v s = true <-> v = VStr s.
Proof using Type.
  destruct v; simpl; try (split; [discriminate | intros H; discriminate H]).
  rewrite String.eqb_eq. split; congruence.
Qed.

Lemma eq_str_false (v : value) (s : string) : eq_str v s = false <-> v <> VStr s.
Proof using Type.
  rewrite <- eq_str_true. destruct (eq_str v s); split; congruence.
Qed.

Lemma getitem_Ok (hp : dict) (key : string) (v : value) :
  getitem hp key = Ok v <-> hp !! key = Some v.
Proof using Type. unfold getitem. destruct (hp !! key); split; congruence. Qed.

Lemma getitem_Raise (hp : dict) (key : string) (e : exn) :
  getitem hp key = Raise e -> e = KeyError key /\ hp !! key = None.
Proof using Type. unfold getitem. destruct (hp !! key); [discriminate|]. split; congruence. Qed.

Lemma truthy_false (d : dict) : truthy d = false -> d = ∅.
Proof using Type.
  unfold truthy. intros H. apply negb_false_iff, Nat.eqb_eq in H.
  now apply map_size_empty_iff.
Qed.

Lemma update_lookup (d other : dict) (key : string) :
  update d other !! key =
    match other !! key with
    | Some v => Some v
    | None => d !! key
    end.
Proof using Type.
  unfold update. destruct (other !! key) as [v|] eqn:E.
  - now apply lookup_union_Some_l.
  - rewrite lookup_union_r; auto.
Qed.

Lemma read_hparams_Ok (hp : dict) (p : params) :
  read_hparams hp = Ok p ->
  hp !! "kernel_size" = Some (kernel_size p) /\
  hp !! "initial_strides" = Some (initial_strides p) /\
  hp !! "activation" = Some (activation p) /\
  hp !! "optimizer" = Some (optimizer p) /\
  hp !! "conv2d_num_filters" = Some (conv2d_num_filters p) /\
  hp !! "sep_num_filters" = Some (sep_num_filters p) /\
  hp !! "num_residual_blocks" = Some (num_residual_blocks p) /\
  hp !! "dense_merge_type" = Some (dense_merge_type p) /\
  hp !! "num_dense_layers" = Some (num_dense_layers p) /\
  hp !! "dropout_rate" = Some (dropout_rate p) /\
  hp !! "dense_use_bn" = Some (dense_use_bn p).
Proof using Type.
  unfold read_hparams. intros H.
  repeat (apply bind_Ok in H; destruct H as (? & ?%getitem_Ok & H)).
  injection H as <-. simpl. repeat split; assumption.
Qed.

Lemma read_hparams_explicit (hp : dict) (e : exn) :
  read_hparams hp = Raise e -> explicit e = false.
Proof using Type.
  unfold read_hparams. intros H.
  repeat (apply bind_Raise in H;
          destruct H as [[-> _]%getitem_Raise | (? & _ & H)]; [reflexivity|]).
  discriminate.
Qed.

Lemma range_explicit (v : value) (e : exn) :
  range v = Raise e -> explicit e = false.
Proof using Type. destruct v; simpl; intros H; inversion H; reflexivity. Qed.

Lemma imul2_explicit (v : value) (e : exn) :
  imul2 v = Raise e -> explicit e = false.
Proof using Type. destruct v; simpl; intros H; inversion H; reflexivity. Qed.

Lemma build_graph_Ok (input_shape num_classes : value) (p : params) (g : model) :
  build_graph input_shape num_classes p = Ok g ->
  exists n d k,
    range (num_residual_blocks p) = Ok n /\
    imul2 (sep_num_filters p) = Ok d /\
    range (num_dense_layers p) = Ok k /\
    g = Model [Input input_shape] (chain input_shape num_classes p n d k).
Proof using Type.
  unfold build_graph. intros H.
  apply bind_Ok in H. destruct H as (n & Hn & H).
  apply bind_Ok in H. destruct H as (d & Hd & H).
  apply bind_Ok in H. destruct H as (k & Hk & H).
  exists n, d, k. repeat split; try assumption.
  injection H as <-. f_equal.
  rewrite !iter_call. unfold chain, reduction, call.
  destruct (eq_str (dense_merge_type p) "flatten");
    [| destruct (eq_str (dense_merge_type p) "avg")];
    simpl; rewrite <- ?app_assoc; reflexivity.
Qed.

Lemma build_graph_total (input_shape num_classes : value) (p : params)
    (n k : nat) (d : value) :
  range (num_residual_blocks p) = Ok n ->
  imul2 (sep_num_filters p) = Ok d ->
  range (num_dense_layers p) = Ok k ->
  exists g, build_graph input_shape num_classes p = Ok g.
Proof using Type.
  intros Hn Hd Hk. unfold build_graph. rewrite Hn. simpl. rewrite Hd. simpl.
  rewrite Hk. simpl. eauto.
Qed.

Lemma build_graph_explicit (input_shape num_classes : value) (p : params)
    (e : exn) :
  build_graph input_shape num_classes p = Raise e -> explicit e = false.
Proof using Type.
  unfold build_graph. intros H.
  apply bind_Raise in H. destruct H as [H | (n & _ & H)];
    [now apply range_explicit in H|].
  apply bind_Raise in H. destruct H as [H | (d & _ & H)];
    [now apply imul2_explicit in H|].
  apply bind_Raise in H. destruct H as [H | (k & _ & H)];
    [now apply range_explicit in H|].
  discriminate.
Qed.

(** What [select_optimizer] returns, by cases on the optimizer value. *)
Lemma select_optimizer_adam (hp : dict) :
  select_optimizer hp (VStr "adam") =
    (lr <- getitem hp "learning_rate" ;; Ok (Adam lr)).
Proof using Type. reflexivity. Qed.

Lemma select_optimizer_sgd (hp : dict) :
  select_optimizer hp (VStr "sgd") =
    (lr <- getitem hp "learning_rate" ;;
     momentum <- getitem hp "momentum" ;;
     decay <- getitem hp "learning_rate_decay" ;;
     Ok (SGD lr momentum decay)).
Proof using Type. reflexivity. Qed.

Lemma select_optimizer_rmsprop (hp : dict) :
  select_optimizer hp (VStr "rmsprop") =
    (lr <- getitem hp "learning_rate" ;;
     decay <- getitem hp "learning_rate_decay" ;;
     Ok (RMSprop lr decay)).
Proof using Type. reflexivity. Qed.

Lemma select_optimizer_unsupported (hp : dict) (o : value) :
  ~ supported o -> select_optimizer hp o = Raise (unsupported_error o).
Proof using Type.
  intros H. unfold supported in H. unfold select_optimizer.
  destruct (eq_str o "adam") eqn:E1;
    [apply eq_str_true in E1; exfalso; apply H; left; exact E1|].
  destruct (eq_str o "sgd") eqn:E2;
    [apply eq_str_true in E2; exfalso; apply H; right; left; exact E2|].
  destruct (eq_str o "rmsprop") eqn:E3;
    [apply eq_str_true in E3; exfalso; apply H; right; right; exact E3|].
  reflexivity.
Qed.

Lemma select_optimizer_Ok (hp : dict) (o : value) (opt : optimizer_obj) :
  select_optimizer hp o = Ok opt -> supported o.
Proof using Type.
  intros H. unfold select_optimizer in H. unfold supported.
  destruct (eq_str o "adam") eqn:E1;
    [apply eq_str_true in E1; left; exact E1|].
  destruct (eq_str o "sgd") eqn:E2;
    [apply eq_str_true in E2; right; left; exact E2|].
  destruct (eq_str o "rmsprop") eqn:E3;
    [apply eq_str_true in E3; right; right; exact E3|].
  discriminate.
Qed.

Lemma select_optimizer_explicit (hp : dict) (o : value) (e : exn) :
  select_optimizer hp o = Raise e -> explicit e = true ->
  ~ supported o /\ e = unsupported_error o.
Proof using Type.
  intros H He. unfold select_optimizer in H.
  destruct (eq_str o "adam") eqn:E1.
  { apply bind_Raise in H. destruct H as [[-> _]%getitem_Raise | (? & _ & H)];
      discriminate. }
  destruct (eq_str o "sgd") eqn:E2.
  { repeat (apply bind_Raise in H;
            destruct H as [[-> _]%getitem_Raise | (? & _ & H)];
            [discriminate|]).
    discriminate. }
  destruct (eq_str o "rmsprop") eqn:E3.
  { repeat (apply bind_Raise in H;
            destruct H as [[-> _]%getitem_Raise | (? & _ & H)];
            [discriminate|]).
    discriminate. }
  apply eq_str_false in E1, E2, E3. injection H as <-.
  split; [|reflexivity].
  intros [S | [S | S]]; [apply E1 | apply E2 | apply E3]; exact S.
Qed.

Lemma build_Ok (input_shape num_classes : value) (hp : dict) (m : model) :
  build input_shape num_classes hp = Ok m ->
  exists p g o,
    read_hparams hp = Ok p /\
    build_graph input_shape num_classes p = Ok g /\
    select_optimizer hp (optimizer p) = Ok o /\
    m = compile g o "categorical_crossentropy" ["accuracy"].
Proof using Type.
  unfold build. intros H.
  apply bind_Ok in H. destruct H as (p & Hp & H).
  apply bind_Ok in H. destruct H as (g & Hg & H).
  apply bind_Ok in H. destruct H as (o & Ho & H).
  injection H as <-. eauto 10.
Qed.

Lemma build_explicit (input_shape num_classes : value) (hp : dict) (e : exn) :
  build input_shape num_classes hp = Raise e -> explicit e = true ->
  exists o, hp !! "optimizer" = Some o /\ ~ supported o /\
            e = unsupported_error o.
Proof using Type.
  unfold build. intros H He.
  apply bind_Raise in H. destruct H as [H | (p & Hp & H)].
  { apply read_hparams_explicit in H. congruence. }
  apply bind_Raise in H. destruct H as [H | (g & Hg & H)].
  { apply build_graph_explicit in H. congruence. }
  apply bind_Raise in H. destruct H as [H | (o & Ho & H)]; [|discriminate].
  apply select_optimizer_explicit in H; [|assumption].
  exists (optimizer p). split; [|assumption].
  apply read_hparams_Ok in Hp. destruct Hp as (_ & _ & _ & Ho & _). exact Ho.
Qed.

Lemma resolve_hparams_union (input_shape num_classes : value) (hparams : dict) :
  resolve_hparams input_shape num_classes hparams =
    hparams ∪ default_hparams input_shape num_classes.
Proof using Type.
  unfold resolve_hparams, update. rewrite (right_id_L ∅ (∪)).
  destruct (truthy hparams) eqn:E; [reflexivity|].
  apply truthy_false in E. subst. now rewrite (left_id_L ∅ (∪)).
Qed.

Lemma _hyperception_Ok (input_shape num_classes : value) (hparams : dict)
    (m : model) :
  _hyperception input_shape num_classes hparams = Ok m ->
  exists p n d k o,
    read_hparams (resolve_hparams input_shape num_classes hparams) = Ok p /\
    range (num_residual_blocks p) = Ok n /\
    imul2 (sep_num_filters p) = Ok d /\
    range (num_dense_layers p) = Ok k /\
    select_optimizer (resolve_hparams input_shape num_classes hparams)
      (optimizer p) = Ok o /\
    m = compile (Model [Input input_shape]
                   (chain input_shape num_classes p n d k))
          o "categorical_crossentropy" ["accuracy"].
Proof using Type.
  unfold _hyperception. intros H.
  apply build_Ok in H. destruct H as (p & g & o & Hp & Hg & Ho & ->).
  apply build_graph_Ok in Hg. destruct Hg as (n & d & k & Hn & Hd & Hk & ->).
  exists p, n, d, k, o. auto 10.
Qed.

Lemma _hyperception_fn_explicit (args : list value) (kwargs : dict) (e : exn) :
  _hyperception_fn args kwargs = Raise e -> explicit e = true ->
  exists o, ~ supported o /\ e = unsupported_error o.
Proof using Type.
  assert (Hb : forall s nc hp, _hyperception s nc hp = Raise e ->
                 explicit e = true ->
                 exists o, ~ supported o /\ e = unsupported_error o).
  { intros s nc hp H He. apply build_explicit in H; [|assumption].
    destruct H as (o & _ & Hn & ->). eauto. }
  assert (Ht : forall kw name r, take_keyword kw name None = Raise r ->
                 explicit r = false).
  { intros kw name r. unfold take_keyword.
    destruct (kw !! name); intros H; inversion H; reflexivity. }
  assert (Hk : forall kw name r, no_keyword kw name = Raise r ->
                 explicit r = false).
  { intros kw name r. unfold no_keyword.
    destruct (has_key kw name); intros H; inversion H; reflexivity. }
  intros H He. unfold _hyperception_fn in H.
  destruct args as [|a1 [|a2 [|a3 rest]]]; [| | |inversion H; subst; discriminate].
  - apply bind_Raise in H. destruct H as [H | ([v1 kw1] & _ & H)];
      [apply Ht in H; congruence|].
    apply bind_Raise in H. destruct H as [H | ([v2 kw2] & _ & H)];
      [apply Ht in H; congruence|].
    eauto.
  - apply bind_Raise in H. destruct H as [H | (? & _ & H)];
      [apply Hk in H; congruence|].
    apply bind_Raise in H. destruct H as [H | ([v2 kw2] & _ & H)];
      [apply Ht in H; congruence|].
    eauto.
  - apply bind_Raise in H. destruct H as [H | (? & _ & H)];
      [apply Hk in H; congruence|].
    apply bind_Raise in H. destruct H as [H | (? & _ & H)];
      [apply Hk in H; congruence|].
    eauto.
Qed.

(** C1.  Once the hyperparameters are read and the graph is assembled, an
    optimizer value that is none of ["adam"], ["sgd"], ["rmsprop"] makes the
    builder raise the unsupported-optimizer [ValueError], which carries the
    offending value; with such a value the builder never returns a model;
    and every exception the module raises by a [raise] of its own, in
    [_hyperception] and in [_hyperception_single], is that one. *)
Theorem unsupported_optimizer_error (input_shape num_classes : value)
    (hparams : dict) :
  let hp := resolve_hparams input_shape num_classes hparams in
  (forall p g,
     read_hparams hp = Ok p ->
     build_graph input_shape num_classes p = Ok g ->
     ~ supported (optimizer p) ->
     _hyperception input_shape num_classes hparams =
       Raise (unsupported_error (optimizer p)) /\
     reports (unsupported_error (optimizer p)) (optimizer p)) /\
  (forall o m,
     hp !! "optimizer" = Some o -> ~ supported o ->
     _hyperception input_shape num_classes hparams <> Ok m) /\
  (forall e,
     _hyperception input_shape num_classes hparams = Raise e ->
     explicit e = true ->
     exists o, hp !! "optimizer" = Some o /\ ~ supported o /\
               e = unsupported_error o) /\
  (forall mode e,
     _hyperception_single input_shape num_classes mode hparams = Raise e ->
     explicit e = true ->
     exists o, ~ supported o /\ e = unsupported_error o).
Proof using Type.
  intros hp. split; [|split; [|split]].
  - intros p g Hp Hg Hn. split.
    + unfold _hyperception, build. fold hp. rewrite Hp. simpl. rewrite Hg.
      simpl. rewrite (select_optimizer_unsupported _ _ Hn). reflexivity.
    + simpl. right. left. reflexivity.
  - intros o m Ho Hn Hm. apply build_Ok in Hm.
    destruct Hm as (p & g & opt & Hp & _ & Hopt & _).
    apply read_hparams_Ok in Hp. apply select_optimizer_Ok in Hopt.
    fold hp in Hp. destruct Hp as (_ & _ & _ & Hp & _).
    rewrite Ho in Hp. injection Hp as ->. contradiction.
  - intros e H He. now apply build_explicit in H.
  - intros mode e H He. unfold _hyperception_single in H.
    apply bind_Raise in H. destruct H as [H | (kw & _ & H)].
    + unfold keyword_call in H.
      destruct (existsb _ _); inversion H; subst; discriminate.
    + now apply _hyperception_fn_explicit in H.
Qed.

(** C2.  The resolved mapping is the default mapping updated by the
    overrides: on every key the override value is taken as it is when there
    is one, known key or not, and the default value is kept otherwise. *)
Theorem resolve_hparams_override_wins (input_shape num_classes : value)
    (hparams : dict) :
  resolve_hparams input_shape num_classes hparams =
    update (default_hparams input_shape num_classes) hparams /\
  forall key,
    resolve_hparams input_shape num_classes hparams !! key =
      match hparams !! key with
      | Some v => Some v
      | None => default_hparams input_shape num_classes !! key
      end.
Proof using Type.
  rewrite resolve_hparams_union. split; [reflexivity|].
  intros key. apply update_lookup.
Qed.

Lemma filter_repeat_false {A : Type} (f : A -> bool) (x : A) (n : nat) :
  f x = false -> List.filter f (repeat x n) = [].
Proof using Type. intros H. induction n as [|n IH]; simpl; [|rewrite H]; auto. Qed.

Lemma is_reduction_reduction (v : value) : is_reduction (reduction v) = true.
Proof using Type.
  unfold reduction.
  destruct (eq_str v "flatten"); [|destruct (eq_str v "avg")]; reflexivity.
Qed.

Lemma reduction_cases (v : value) :
  (v = VStr "flatten" -> reduction v = Flatten) /\
  (v = VStr "avg" -> reduction v = GlobalAveragePooling2D) /\
  (v <> VStr "flatten" -> v <> VStr "avg" -> reduction v = GlobalMaxPooling2D).
Proof using Type.
  unfold reduction. repeat split.
  - intros ->. reflexivity.
  - intros ->. reflexivity.
  - intros H1%eq_str_false H2%eq_str_false. now rewrite H1, H2.
Qed.

Lemma filter_reduction_chain (input_shape num_classes : value) (p : params)
    (n k : nat) (d : value) :
  List.filter is_reduction (chain input_shape num_classes p n d k) =
    [reduction (dense_merge_type p)].
Proof using Type.
  unfold chain. rewrite !List.filter_app.
  rewrite !filter_repeat_false by reflexivity. simpl.
  now rewrite is_reduction_reduction.
Qed.

(** C3.  The graph of a model the builder returns has exactly one
    spatial-reduction layer, placed right after the downsampling residual
    block: [Flatten] when "dense_merge_type" is the string "flatten",
    [GlobalAveragePooling2D] when it is "avg", and [GlobalMaxPooling2D] for
    every other value. *)
Theorem merge_step_selection (input_shape num_classes : value)
    (hparams : dict) (m : model) :
  _hyperception input_shape num_classes hparams = Ok m ->
  exists dmt,
    resolve_hparams input_shape num_classes hparams !! "dense_merge_type"
      = Some dmt /\
    (dmt = VStr "flatten" ->
     List.filter is_reduction (outputs m) = [Flatten]) /\
    (dmt = VStr "avg" ->
     List.filter is_reduction (outputs m) = [GlobalAveragePooling2D]) /\
    (dmt <> VStr "flatten" -> dmt <> VStr "avg" ->
     List.filter is_reduction (outputs m) = [GlobalMaxPooling2D]) /\
    exists before after dims act r,
      outputs m = before ++ residual dims act true :: r :: after /\
      is_reduction r = true.
Proof using Type.
  intros H. apply _hyperception_Ok in H.
  destruct H as (p & n & d & k & o & Hp & _ & _ & _ & _ & ->).
  apply read_hparams_Ok in Hp.
  destruct Hp as (_ & _ & _ & _ & _ & _ & _ & Hdmt & _).
  exists (dense_merge_type p). split; [exact Hdmt|].
  cbn [outputs compile Model]. rewrite filter_reduction_chain.
  destruct (reduction_cases (dense_merge_type p)) as (Hf & Ha & Hm).
  split; [intros E; now rewrite Hf|].
  split; [intros E; now rewrite Ha|].
  split; [intros E1 E2; now rewrite Hm|].
  exists ([Input input_shape;
           conv (conv2d_num_filters p) (kernel_size p) (activation p)
             (initial_strides p)]
          ++ repeat (residual (sep_num_filters p) (activation p) false) n),
    (repeat (dense num_classes (activation p) (dense_use_bn p)
               (dropout_rate p)) k ++ [Dense num_classes "softmax"]),
    d, (activation p), (reduction (dense_merge_type p)).
  split.
  - unfold chain. rewrite <- app_assoc. reflexivity.
  - apply is_reduction_reduction.
Qed.

(** C4.  In the graph of a model the builder returns, the input and the
    initial convolution are followed by the non-downsampling residual
    blocks, as many as [range] of "num_residual_blocks" yields (that is the
    number itself for a non-negative integer, and none for an override to
    0), each with the filter count "sep_num_filters"; then comes one
    downsampling residual block with that filter count doubled, and no
    residual block after it. *)
Theorem residual_stage (input_shape num_classes : value) (hparams : dict)
    (m : model) :
  _hyperception input_shape num_classes hparams = Ok m ->
  let hp := resolve_hparams input_shape num_classes hparams in
  exists c ks act st N F n d after,
    hp !! "num_residual_blocks" = Some N /\
    hp !! "sep_num_filters" = Some F /\
    range N = Ok n /\
    imul2 F = Ok d /\
    outputs m =
      [Input input_shape; conv c ks act st]
      ++ repeat (residual F act false) n
      ++ residual d act true :: after /\
    Forall (fun l => is_residual l = false) after /\
    (forall z, N = VInt z -> n = Z.to_nat z /\ (0 <= z -> Z.of_nat n = z)%Z) /\
    (forall f, F = VInt f -> d = VInt (2 * f)) /\
    (hparams !! "num_residual_blocks" = Some (VInt 0) -> n = 0%nat).
Proof using Type.
  intros H hp. apply _hyperception_Ok in H. fold hp in H.
  destruct H as (p & n & d & k & o & Hp & Hn & Hd & _ & _ & ->).
  apply read_hparams_Ok in Hp.
  destruct Hp as (_ & _ & _ & _ & _ & HF & HN & _).
  exists (conv2d_num_filters p), (kernel_size p), (activation p),
    (initial_strides p), (num_residual_blocks p), (sep_num_filters p), n, d.
  eexists. split; [exact HN|]. split; [exact HF|].
  split; [exact Hn|]. split; [exact Hd|].
  split; [reflexivity|].
  split.
  { constructor.
    - unfold reduction.
      destruct (eq_str _ "flatten"); [|destruct (eq_str _ "avg")]; reflexivity.
    - apply Forall_app. split.
      + apply List.Forall_forall. intros l Hl. apply repeat_spec in Hl.
        now subst.
      + repeat constructor. }
  split.
  { intros z E. rewrite E in Hn. injection Hn as <-. split; [reflexivity|].
    intros Hz. now apply Z2Nat.id. }
  split.
  { intros f E. rewrite E in Hd. injection Hd as <-. f_equal.
    apply Z.mul_comm. }
  intros Ho.
  assert (E : hp !! "num_residual_blocks" = Some (VInt 0)).
  { unfold hp. rewrite resolve_hparams_union.
    now apply lookup_union_Some_l. }
  rewrite E in HN. injection HN as HN. rewrite <- HN in Hn.
  now injection Hn as <-.
Qed.

(** C5.  With the hyperparameters read and the graph assembled: for "adam"
    the builder returns the model compiled with [Adam] of the mapping's
    "learning_rate" and nothing else; for "sgd" with [SGD] of its
    "learning_rate", "momentum" and "learning_rate_decay"; for "rmsprop" with
    [RMSprop] of its "learning_rate" and "learning_rate_decay".  Conversely
    the optimizer of every model the builder returns is the one of these
    that the "optimizer" string names, made from those keys. *)
Theorem optimizer_configuration (input_shape num_classes : value)
    (hparams : dict) (p : params) (g : model) :
  let hp := resolve_hparams input_shape num_classes hparams in
  let compiled o := compile g o "categorical_crossentropy" ["accuracy"] in
  read_hparams hp = Ok p ->
  build_graph input_shape num_classes p = Ok g ->
  (optimizer p = VStr "adam" ->
   forall lr,
     hp !! "learning_rate" = Some lr ->
     _hyperception input_shape num_classes hparams = Ok (compiled (Adam lr))) /\
  (optimizer p = VStr "sgd" ->
   forall lr momentum decay,
     hp !! "learning_rate" = Some lr ->
     hp !! "momentum" = Some momentum ->
     hp !! "learning_rate_decay" = Some decay ->
     _hyperception input_shape num_classes hparams =
       Ok (compiled (SGD lr momentum decay))) /\
  (optimizer p = VStr "rmsprop" ->
   forall lr decay,
     hp !! "learning_rate" = Some lr ->
     hp !! "learning_rate_decay" = Some decay ->
     _hyperception input_shape num_classes hparams =
       Ok (compiled (RMSprop lr decay))) /\
  (forall m,
     _hyperception input_shape num_classes hparams = Ok m ->
     (optimizer p = VStr "adam" ->
      exists lr,
        hp !! "learning_rate" = Some lr /\ m_optimizer m = Some (Adam lr)) /\
     (optimizer p = VStr "sgd" ->
      exists lr momentum decay,
        hp !! "learning_rate" = Some lr /\
        hp !! "momentum" = Some momentum /\
        hp !! "learning_rate_decay" = Some decay /\
        m_optimizer m = Some (SGD lr momentum decay)) /\
     (optimizer p = VStr "rmsprop" ->
      exists lr decay,
        hp !! "learning_rate" = Some lr /\
        hp !! "learning_rate_decay" = Some decay /\
        m_optimizer m = Some (RMSprop lr decay))).
Proof using Type.
  intros hp compiled Hp Hg.
  assert (Hrun : forall o, select_optimizer hp (optimizer p) = Ok o ->
            _hyperception input_shape num_classes hparams = Ok (compiled o)).
  { intros o Ho. unfold _hyperception, build. fold hp.
    rewrite Hp. simpl. rewrite Hg. simpl. rewrite Ho. reflexivity. }
  split; [|split; [|split]].
  - intros E lr Hlr. apply Hrun. rewrite E, select_optimizer_adam.
    apply getitem_Ok in Hlr. now rewrite Hlr.
  - intros E lr momentum decay Hlr Hmo Hde. apply Hrun.
    rewrite E, select_optimizer_sgd.
    apply getitem_Ok in Hlr, Hmo, Hde. now rewrite Hlr, Hmo, Hde.
  - intros E lr decay Hlr Hde. apply Hrun.
    rewrite E, select_optimizer_rmsprop.
    apply getitem_Ok in Hlr, Hde. now rewrite Hlr, Hde.
  - intros m Hm. apply build_Ok in Hm. fold hp in Hm.
    destruct Hm as (p' & g' & o & Hp' & _ & Ho & ->).
    rewrite Hp in Hp'. injection Hp' as <-.
    cbn [m_optimizer compile]. split; [|split]; intros E; rewrite E in Ho.
    + rewrite select_optimizer_adam in Ho.
      apply bind_Ok in Ho. destruct Ho as (lr & Hlr%getitem_Ok & Ho).
      injection Ho as <-. eauto.
    + rewrite select_optimizer_sgd in Ho.
      apply bind_Ok in Ho. destruct Ho as (lr & Hlr%getitem_Ok & Ho).
      apply bind_Ok in Ho. destruct Ho as (mo & Hmo%getitem_Ok & Ho).
      apply bind_Ok in Ho. destruct Ho as (de & Hde%getitem_Ok & Ho).
      injection Ho as <-. eauto 10.
    + rewrite select_optimizer_rmsprop in Ho.
      apply bind_Ok in Ho. destruct Ho as (lr & Hlr%getitem_Ok & Ho).
      apply bind_Ok in Ho. destruct Ho as (de & Hde%getitem_Ok & Ho).
      injection Ho as <-. eauto 10.
Qed.

Lemma build_run (input_shape num_classes : value) (hp : dict) (p : params)
    (n k : nat) (d : value) (o : optimizer_obj) :
  read_hparams hp = Ok p ->
  range (num_residual_blocks p) = Ok n ->
  imul2 (sep_num_filters p) = Ok d ->
  range (num_dense_layers p) = Ok k ->
  select_optimizer hp (optimizer p) = Ok o ->
  build input_shape num_classes hp =
    Ok (compile (Model [Input input_shape]
                   (chain input_shape num_classes p n d k))
          o "categorical_crossentropy" ["accuracy"]).
Proof using Type.
  intros Hp Hn Hd Hk Ho.
  destruct (build_graph_total input_shape num_classes p n k d Hn Hd Hk)
    as [g Hg].
  unfold build. rewrite Hp. cbn [bind]. rewrite Hg. cbn [bind].
  rewrite Ho. cbn [bind].
  apply build_graph_Ok in Hg.
  destruct Hg as (n' & d' & k' & Hn' & Hd' & Hk' & ->).
  congruence.
Qed.

Ltac take_key Hkeys key v H :=
  destruct (proj1 (List.Forall_forall _ _) Hkeys key) as [v H];
  [simpl; repeat (first [left; reflexivity | right])|].

Lemma usable_runs (input_shape num_classes : value) (hp : dict) :
  usable hp ->
  exists p n d k o,
    read_hparams hp = Ok p /\
    range (num_residual_blocks p) = Ok n /\
    imul2 (sep_num_filters p) = Ok d /\
    range (num_dense_layers p) = Ok k /\
    select_optimizer hp (optimizer p) = Ok o /\
    build input_shape num_classes hp =
      Ok (compile (Model [Input input_shape]
                     (chain input_shape num_classes p n d k))
            o "categorical_crossentropy" ["accuracy"]).
Proof using Type.
  intros (Hkeys & (f & Hf) & (z & Hz) & (z' & Hz') & Hopt).
  take_key Hkeys "kernel_size" ks Hks.
  take_key Hkeys "initial_strides" st Hst.
  take_key Hkeys "activation" act Hact.
  take_key Hkeys "optimizer" opt Hoptv.
  take_key Hkeys "conv2d_num_filters" c Hc.
  take_key Hkeys "dense_merge_type" dmt Hdmt.
  take_key Hkeys "dropout_rate" dr Hdr.
  take_key Hkeys "dense_use_bn" bn Hbn.
  take_key Hkeys "learning_rate" lr Hlr.
  set (p := Params ks st act opt c (VInt f) (VInt z) dmt (VInt z') dr bn).
  assert (Hp : read_hparams hp = Ok p).
  { unfold read_hparams, getitem.
    rewrite Hks, Hst, Hact, Hoptv, Hc, Hf, Hz, Hdmt, Hz', Hdr, Hbn.
    reflexivity. }
  assert (Hsel : exists o, select_optimizer hp opt = Ok o).
  { destruct Hopt as [Ho | [(Ho & [mo Hmo] & [de Hde]) | (Ho & [de Hde])]];
      rewrite Hoptv in Ho; injection Ho as ->.
    - rewrite select_optimizer_adam. unfold getitem. rewrite Hlr. simpl. eauto.
    - rewrite select_optimizer_sgd. unfold getitem. rewrite Hlr, Hmo, Hde.
      simpl. eauto.
    - rewrite select_optimizer_rmsprop. unfold getitem. rewrite Hlr, Hde.
      simpl. eauto. }
  destruct Hsel as [o Ho].
  exists p, (Z.to_nat z), (VInt (f * 2)), (Z.to_nat z'), o.
  split; [exact Hp|]. do 3 (split; [reflexivity|]). split; [exact Ho|].
  now apply build_run.
Qed.

(** C6.  When the default mapping for the shape and the class count is
    usable, the builder called with no overrides returns a model: its input
    is the [Input] of the shape argument, its graph starts there and ends in
    [Dense] with as many units as classes and the softmax activation, and it
    is compiled with an optimizer, the categorical cross-entropy loss and
    the accuracy metric. *)
Theorem default_build_succeeds (input_shape num_classes : value) :
  usable (default_hparams input_shape num_classes) ->
  exists m body,
    _hyperception input_shape num_classes ∅ = Ok m /\
    inputs m = [Input input_shape] /\
    outputs m = Input input_shape :: body ++ [Dense num_classes "softmax"] /\
    is_Some (m_optimizer m) /\
    m_loss m = Some "categorical_crossentropy" /\
    m_metrics m = ["accuracy"].
Proof using Type.
  intros Hu.
  destruct (usable_runs input_shape num_classes _ Hu)
    as (p & n & d & k & o & _ & _ & _ & _ & _ & Hb).
  eexists. eexists. split.
  { unfold _hyperception. rewrite resolve_hparams_union.
    rewrite (left_id_L ∅ (∪)). exact Hb. }
  cbn [inputs outputs m_optimizer m_loss m_metrics compile Model].
  split; [reflexivity|]. split; [|eauto].
  unfold chain. cbn [app]. f_equal.
  rewrite !app_comm_cons, !app_assoc. reflexivity.
Qed.

(** C7.  In the graph of a model the builder returns, the reduction layer is
    followed by the dense blocks, as many as [range] of "num_dense_layers"
    yields, each made with the mapping's "dense_use_bn" and "dropout_rate"
    as its batch-normalisation and dropout settings, and then by the final
    softmax [Dense] layer; no dense block comes before the reduction.  With
    "num_dense_layers" equal to 0 the reduction output feeds the final layer
    directly. *)
Theorem dense_stage (input_shape num_classes : value) (hparams : dict)
    (m : model) :
  _hyperception input_shape num_classes hparams = Ok m ->
  let hp := resolve_hparams input_shape num_classes hparams in
  exists before r act bn dr M k,
    hp !! "num_dense_layers" = Some M /\
    hp !! "activation" = Some act /\
    hp !! "dense_use_bn" = Some bn /\
    hp !! "dropout_rate" = Some dr /\
    range M = Ok k /\
    is_reduction r = true /\
    Forall (fun l => is_dense_block l = false) before /\
    outputs m =
      before ++ [r] ++ repeat (dense num_classes act bn dr) k
      ++ [Dense num_classes "softmax"] /\
    (forall z, M = VInt z -> k = Z.to_nat z /\ (0 <= z -> Z.of_nat k = z)%Z) /\
    (M = VInt 0 -> outputs m = before ++ [r; Dense num_classes "softmax"]).
Proof using Type.
  intros H hp. apply _hyperception_Ok in H. fold hp in H.
  destruct H as (p & n & d & k & o & Hp & _ & _ & Hk & _ & ->).
  apply read_hparams_Ok in Hp.
  destruct Hp as (_ & _ & Hact & _ & _ & _ & _ & _ & HM & Hdr & Hbn).
  exists ([Input input_shape;
           conv (conv2d_num_filters p) (kernel_size p) (activation p)
             (initial_strides p)]
          ++ repeat (residual (sep_num_filters p) (activation p) false) n
          ++ [residual d (activation p) true]),
    (reduction (dense_merge_type p)), (activation p), (dense_use_bn p),
    (dropout_rate p), (num_dense_layers p), k.
  assert (Hout : outputs (compile (Model [Input input_shape]
                    (chain input_shape num_classes p n d k)) o
                    "categorical_crossentropy" ["accuracy"]) =
            ([Input input_shape;
              conv (conv2d_num_filters p) (kernel_size p) (activation p)
                (initial_strides p)]
             ++ repeat (residual (sep_num_filters p) (activation p) false) n
             ++ [residual d (activation p) true])
            ++ [reduction (dense_merge_type p)]
            ++ repeat (dense num_classes (activation p) (dense_use_bn p)
                         (dropout_rate p)) k
            ++ [Dense num_classes "softmax"]).
  { cbn [outputs compile Model]. unfold chain.
    rewrite <- !app_assoc. reflexivity. }
  split; [exact HM|]. split; [exact Hact|]. split; [exact Hbn|].
  split; [exact Hdr|]. split; [exact Hk|].
  split; [apply is_reduction_reduction|].
  split.
  { repeat constructor. apply Forall_app. split; [|repeat constructor].
    apply List.Forall_forall. intros l Hl. apply repeat_spec in Hl.
    now subst. }
  split; [exact Hout|].
  split.
  { intros z E. rewrite E in Hk. injection Hk as <-. split; [reflexivity|].
    intros Hz. now apply Z2Nat.id. }
  intros E. rewrite E in Hk. injection Hk as <-. exact Hout.
Qed.

(** C8.  Calling the closure that [hyperception] returns with no arguments
    is calling [_hyperception] with the stored shape, class count and
    hyperparameters: the deferred construction gives the result of the
    direct one, model or exception. *)
Theorem deferred_construction (input_shape num_classes : value)
    (hparams : dict) :
  partial_call (hyperception input_shape num_classes hparams) [] ∅ =
    _hyperception_fn [input_shape; num_classes] hparams /\
  (hparams !! "input_shape" = None ->
   hparams !! "num_classes" = None ->
   partial_call (hyperception input_shape num_classes hparams) [] ∅ =
     _hyperception input_shape num_classes hparams).
Proof using Type.
  assert (E : partial_call (hyperception input_shape num_classes hparams) [] ∅
              = _hyperception_fn [input_shape; num_classes] hparams).
  { unfold partial_call, hyperception, update. cbn [func args keywords app].
    now rewrite (left_id_L ∅ (∪)). }
  split; [exact E|].
  intros Hs Hn. rewrite E. unfold _hyperception_fn, no_keyword, has_key.
  now rewrite Hs, Hn.
Qed.

(** C10.  [_hyperception_single] does not use [mode]: two values of it give
    the same result, whether [mode] is passed by keyword, by position or
    left to its default. *)
Theorem mode_is_ignored (input_shape num_classes mode1 mode2 : value)
    (hparams : dict) :
  _hyperception_single input_shape num_classes mode1 hparams =
    _hyperception_single input_shape num_classes mode2 hparams /\
  _hyperception_single_fn [input_shape; num_classes; mode1] hparams =
    _hyperception_single_fn [input_shape; num_classes; mode2] hparams /\
  _hyperception_single_fn [input_shape; num_classes]
      (<["mode" := mode1]> hparams) =
    _hyperception_single_fn [input_shape; num_classes]
      (<["mode" := mode2]> hparams) /\
  _hyperception_single_fn [input_shape; num_classes]
      (<["mode" := mode1]> hparams) =
    _hyperception_single_fn [input_shape; num_classes]
      (delete "mode" hparams).
Proof using Type.
  assert (K : forall mode,
            _hyperception_single_fn [input_shape; num_classes]
              (<["mode" := mode]> hparams) =
            _hyperception_single_fn [input_shape; num_classes]
              (delete "mode" hparams)).
  { intros mode. unfold _hyperception_single_fn, no_keyword, has_key.
    rewrite !lookup_insert_ne, !lookup_delete_ne by discriminate.
    destruct (hparams !! "input_shape"); [reflexivity|].
    destruct (hparams !! "num_classes"); [reflexivity|].
    cbn [bind]. unfold take_keyword.
    rewrite lookup_insert_eq, lookup_delete_eq, delete_insert_eq.
    reflexivity. }
  split; [reflexivity|]. split; [reflexivity|].
  split; [now rewrite !K | apply K].
Qed.

(** ** Further properties of the builder *)

(** X1.  A required key that the resolved mapping lacks makes the builder
    raise [KeyError] for the first such key in the order of lines 69-91,
    whatever the other hyperparameters are; when none is missing the lookups
    succeed. *)
Theorem missing_key_error (input_shape num_classes : value) (hparams : dict) :
  let hp := resolve_hparams input_shape num_classes hparams in
  (forall key,
     first_missing hp required_keys = Some key ->
     _hyperception input_shape num_classes hparams = Raise (KeyError key)) /\
  (first_missing hp required_keys = None ->
   exists p, read_hparams hp = Ok p).
Proof using Type.
  intros hp. unfold _hyperception, build. fold hp. generalize hp. clear hp.
  intros hp. unfold first_missing, required_keys, read_hparams, getitem, has_key.
  cbn [find].
  repeat (destruct (hp !! _);
          [cbn [negb bind] | split; [intros key E; now injection E as <- | discriminate]]).
  split; [discriminate | eauto].
Qed.


(** X3.  With the graph assembled, a sub-parameter that the selected
    optimizer needs and the mapping lacks makes the builder raise [KeyError]
    for it: "learning_rate" for each of the three, then "momentum" and
    "learning_rate_decay" for "sgd", and "learning_rate_decay" for
    "rmsprop". *)
Theorem optimizer_key_missing (input_shape num_classes : value)
    (hparams : dict) (p : params) (g : model) :
  let hp := resolve_hparams input_shape num_classes hparams in
  read_hparams hp = Ok p ->
  build_graph input_shape num_classes p = Ok g ->
  supported (optimizer p) ->
  forall key,
    first_missing hp (optimizer_keys (optimizer p)) = Some key ->
    _hyperception input_shape num_classes hparams = Raise (KeyError key).
Proof using Type.
  intros hp Hp Hg Hs key. unfold _hyperception, build. fold hp.
  rewrite Hp. cbn [bind]. rewrite Hg. cbn [bind].
  unfold first_missing, has_key.
  destruct Hs as [-> | [-> | ->]].
  - rewrite select_optimizer_adam. unfold getitem. cbn [optimizer_keys eq_str String.eqb Ascii.eqb Bool.eqb find].
    change (optimizer_keys (VStr "adam")) with ["learning_rate"]. cbn [find].
    destruct (hp !! "learning_rate"); cbn [negb bind]; [discriminate|].
    intros E. now injection E as <-.
  - rewrite select_optimizer_sgd. unfold getitem.
    change (optimizer_keys (VStr "sgd"))
      with ["learning_rate"; "momentum"; "learning_rate_decay"]. cbn [find].
    repeat (destruct (hp !! _); cbn [negb bind];
            [|intros E; now injection E as <-]).
    discriminate.
  - rewrite select_optimizer_rmsprop. unfold getitem.
    change (optimizer_keys (VStr "rmsprop"))
      with ["learning_rate"; "learning_rate_decay"]. cbn [find].
    repeat (destruct (hp !! _); cbn [negb bind];
            [|intros E; now injection E as <-]).
    discriminate.
Qed.

Lemma optimizer_keys_sub (o : value) (key : string) :
  In key (optimizer_keys o) ->
  In key ["learning_rate"; "momentum"; "learning_rate_decay"].
Proof using Type.
  unfold optimizer_keys.
  destruct (eq_str o "adam"); [|destruct (eq_str o "sgd");
                                 [|destruct (eq_str o "rmsprop")]];
    simpl; intros H; decompose [or] H; subst; auto 6; contradiction.
Qed.

Lemma select_optimizer_ext (hp1 hp2 : dict) (o : value) :
  (forall key, In key (optimizer_keys o) -> hp1 !! key = hp2 !! key) ->
  select_optimizer hp1 o = select_optimizer hp2 o.
Proof using Type.
  unfold select_optimizer, optimizer_keys, getitem. intros H.
  destruct (eq_str o "adam").
  { rewrite (H "learning_rate") by (simpl; auto). reflexivity. }
  destruct (eq_str o "sgd").
  { rewrite (H "learning_rate"), (H "momentum"), (H "learning_rate_decay")
      by (simpl; auto). reflexivity. }
  destruct (eq_str o "rmsprop").
  { rewrite (H "learning_rate"), (H "learning_rate_decay") by (simpl; auto).
    reflexivity. }
  reflexivity.
Qed.

Lemma read_hparams_ext (hp1 hp2 : dict) :
  (forall key, In key required_keys -> hp1 !! key = hp2 !! key) ->
  read_hparams hp1 = read_hparams hp2.
Proof using Type.
  intros H. unfold read_hparams, getitem.
  rewrite (H "kernel_size"), (H "initial_strides"), (H "activation"),
    (H "optimizer"), (H "conv2d_num_filters"), (H "sep_num_filters"),
    (H "num_residual_blocks"), (H "dense_merge_type"), (H "num_dense_layers"),
    (H "dropout_rate"), (H "dense_use_bn")
    by (simpl; repeat (first [left; reflexivity | right])).
  reflexivity.
Qed.

Lemma build_ext (input_shape num_classes : value) (hp1 hp2 : dict) :
  (forall key, In key required_keys -> hp1 !! key = hp2 !! key) ->
  (forall o key,
     hp1 !! "optimizer" = Some o -> In key (optimizer_keys o) ->
     hp1 !! key = hp2 !! key) ->
  build input_shape num_classes hp1 = build input_shape num_classes hp2.
Proof using Type.
  intros Hreq Hopt. unfold build.
  rewrite <- (read_hparams_ext hp1 hp2 Hreq).
  destruct (read_hparams hp1) as [p|e] eqn:Hp; cbn [bind]; [|reflexivity].
  destruct (build_graph input_shape num_classes p); cbn [bind]; [|reflexivity].
  apply read_hparams_Ok in Hp. destruct Hp as (_ & _ & _ & Ho & _).
  rewrite (select_optimizer_ext hp1 hp2 (optimizer p)); [reflexivity|].
  intros key Hk. now apply (Hopt (optimizer p)).
Qed.

Lemma resolve_hparams_insert (input_shape num_classes : value)
    (hparams : dict) (key : string) (v : value) :
  resolve_hparams input_shape num_classes (<[key := v]> hparams) =
    <[key := v]> (resolve_hparams input_shape num_classes hparams).
Proof using Type.
  rewrite !resolve_hparams_union. now rewrite insert_union_l.
Qed.

(** X4.  The model depends on the resolved mapping only through the keys the
    builder looks up: two mappings that agree on the eleven required keys
    and on the sub-parameters of the selected optimizer give the same
    result, model or exception. *)
Theorem build_depends_on_consumed_keys (input_shape num_classes : value)
    (hparams1 hparams2 : dict) :
  let hp1 := resolve_hparams input_shape num_classes hparams1 in
  let hp2 := resolve_hparams input_shape num_classes hparams2 in
  (forall key, In key required_keys -> hp1 !! key = hp2 !! key) ->
  (forall o key,
     hp1 !! "optimizer" = Some o -> In key (optimizer_keys o) ->
     hp1 !! key = hp2 !! key) ->
  _hyperception input_shape num_classes hparams1 =
    _hyperception input_shape num_classes hparams2.
Proof using Type.
  intros hp1 hp2 Hreq Hopt. unfold _hyperception. now apply build_ext.
Qed.

(** X5.  An override under a key the builder never looks up changes
    nothing: the result is the one without that override. *)
Theorem unknown_override_no_effect (input_shape num_classes : value)
    (hparams : dict) (key : string) (v : value) :
  ~ In key consumed_keys ->
  _hyperception input_shape num_classes (<[key := v]> hparams) =
    _hyperception input_shape num_classes hparams.
Proof using Type.
  intros Hk. unfold _hyperception. rewrite resolve_hparams_insert.
  apply build_ext.
  - intros k Hin. apply lookup_insert_ne. intros ->. apply Hk.
    unfold consumed_keys. apply in_or_app. now left.
  - intros o k _ Hin. apply lookup_insert_ne. intros ->. apply Hk.
    unfold consumed_keys. apply in_or_app. right.
    now apply optimizer_keys_sub in Hin.
Qed.

Ltac absurd_key Hin :=
  let E := fresh "E" in
  intros E; rewrite <- E in Hin; simpl in Hin;
  repeat (destruct Hin as [Hin | Hin]; [discriminate Hin|]);
  destruct Hin.

(** X6.  With "adam" selected, "momentum" and "learning_rate_decay" are
    never looked up: overriding them, with any values, gives the result of
    the call without these overrides.  With "rmsprop" the same holds for
    "momentum". *)
Theorem unused_optimizer_parameters (input_shape num_classes : value)
    (hparams : dict) (v w : value) :
  let hp := resolve_hparams input_shape num_classes hparams in
  (hp !! "optimizer" = Some (VStr "adam") ->
   _hyperception input_shape num_classes
     (<["momentum" := v]> (<["learning_rate_decay" := w]> hparams)) =
   _hyperception input_shape num_classes hparams) /\
  (hp !! "optimizer" = Some (VStr "rmsprop") ->
   _hyperception input_shape num_classes (<["momentum" := v]> hparams) =
   _hyperception input_shape num_classes hparams).
Proof using Type.
  intros hp. split; intros Ho; unfold _hyperception;
    rewrite ?resolve_hparams_insert; fold hp; apply build_ext.
  - intros k Hin. rewrite !lookup_insert_ne; [reflexivity| |]; absurd_key Hin.
  - intros o k Hopt Hin.
    rewrite !lookup_insert_ne in Hopt by discriminate.
    rewrite Ho in Hopt. injection Hopt as <-.
    simpl in Hin. destruct Hin as [<- | []].
    now rewrite !lookup_insert_ne by discriminate.
  - intros k Hin. rewrite lookup_insert_ne; [reflexivity|]. absurd_key Hin.
  - intros o k Hopt Hin.
    rewrite lookup_insert_ne in Hopt by discriminate.
    rewrite Ho in Hopt. injection Hopt as <-.
    simpl in Hin. destruct Hin as [<- | [<- | []]];
      now rewrite lookup_insert_ne by discriminate.
Qed.

Lemma select_optimizer_insert (hp : dict) (o : value) (key : string)
    (v : value) :
  ~ In key ["learning_rate"; "momentum"; "learning_rate_decay"] ->
  select_optimizer (<[key := v]> hp) o = select_optimizer hp o.
Proof using Type.
  intros Hk. apply select_optimizer_ext. intros k Hin.
  apply lookup_insert_ne. intros ->. apply Hk.
  now apply optimizer_keys_sub in Hin.
Qed.

Lemma build_residual_count (input_shape num_classes : value) (hp : dict)
    (v1 v2 : value) :
  range v1 = range v2 ->
  build input_shape num_classes (<["num_residual_blocks" := v1]> hp) =
    build input_shape num_classes (<["num_residual_blocks" := v2]> hp).
Proof using Type.
  intros Hr. unfold build, read_hparams, getitem.
  rewrite !lookup_insert_eq. rewrite !lookup_insert_ne by discriminate.
  repeat (destruct (hp !! _); cbn [bind]; [|reflexivity]).
  unfold build_graph.
  cbn [num_residual_blocks sep_num_filters num_dense_layers optimizer
       conv2d_num_filters kernel_size activation initial_strides
       dense_merge_type dropout_rate dense_use_bn].
  rewrite Hr, !select_optimizer_insert; [reflexivity | |];
    simpl; intros H; decompose [or] H; discriminate || contradiction.
Qed.

Lemma build_dense_count (input_shape num_classes : value) (hp : dict)
    (v1 v2 : value) :
  range v1 = range v2 ->
  build input_shape num_classes (<["num_dense_layers" := v1]> hp) =
    build input_shape num_classes (<["num_dense_layers" := v2]> hp).
Proof using Type.
  intros Hr. unfold build, read_hparams, getitem.
  rewrite !lookup_insert_eq. rewrite !lookup_insert_ne by discriminate.
  repeat (destruct (hp !! _); cbn [bind]; [|reflexivity]).
  unfold build_graph.
  cbn [num_residual_blocks sep_num_filters num_dense_layers optimizer
       conv2d_num_filters kernel_size activation initial_strides
       dense_merge_type dropout_rate dense_use_bn].
  rewrite Hr, !select_optimizer_insert; [reflexivity | |];
    simpl; intros H; decompose [or] H; discriminate || contradiction.
Qed.

(** X7.  The two block counts act only through [range]: a negative count
    gives the result of the count 0, and [True] and [False] give the results
    of 1 and 0, for "num_residual_blocks" and for "num_dense_layers". *)
Theorem count_through_range (input_shape num_classes : value)
    (hparams : dict) (key : string) :
  key = "num_residual_blocks" \/ key = "num_dense_layers" ->
  (forall z, (z <= 0)%Z ->
     _hyperception input_shape num_classes (<[key := VInt z]> hparams) =
     _hyperception input_shape num_classes (<[key := VInt 0]> hparams)) /\
  (forall b,
     _hyperception input_shape num_classes (<[key := VBool b]> hparams) =
     _hyperception input_shape num_classes
       (<[key := VInt (Z.b2z b)]> hparams)).
Proof using Type.
  assert (Hneg : forall z, (z <= 0)%Z -> range (VInt z) = range (VInt 0)).
  { intros z Hz. simpl. f_equal. destruct z; try reflexivity. now destruct Hz. }
  assert (Hbool : forall b, range (VBool b) = range (VInt (Z.b2z b))).
  { intros [|]; reflexivity. }
  intros [-> | ->]; split; intros; unfold _hyperception;
    rewrite !resolve_hparams_insert;
    first [apply build_residual_count | apply build_dense_count]; auto.
Qed.

(** X8.  [_hyperception_single] resolves in three layers: the overrides win
    over the fixed defaults, which win over the defaults of
    [default_hparams]; provided the fixed defaults and the overrides hold no
    key "input_shape" or "num_classes", its result is the build from that
    mapping. *)
Theorem single_resolution (input_shape num_classes mode : value)
    (hparams : dict) :
  let fixed := default_fixed_hparams input_shape num_classes in
  update fixed hparams !! "input_shape" = None ->
  update fixed hparams !! "num_classes" = None ->
  _hyperception_single input_shape num_classes mode hparams =
    build input_shape num_classes
      (update (default_hparams input_shape num_classes)
         (update fixed hparams)).
Proof using Type.
  intros fixed Hs Hn. unfold _hyperception_single. fold fixed.
  unfold keyword_call. cbn [existsb fst snd foldr]. unfold has_key.
  rewrite Hs, Hn. cbn [orb bind]. unfold _hyperception_fn, take_keyword.
  rewrite lookup_insert_eq. cbn [bind].
  rewrite delete_insert_id
    by (rewrite lookup_insert_ne by discriminate; exact Hs).
  rewrite lookup_insert_eq. cbn [bind].
  rewrite delete_insert_id by exact Hn.
  unfold _hyperception. now rewrite resolve_hparams_union.
Qed.

(** X9.  A key "input_shape" or "num_classes" among the fixed defaults or the
    overrides clashes with the keyword of the same name in the call of line
    158: [_hyperception_single] raises [TypeError]. *)
Theorem single_reserved_key (input_shape num_classes mode : value)
    (hparams : dict) (key : string) :
  key = "input_shape" \/ key = "num_classes" ->
  is_Some (update (default_fixed_hparams input_shape num_classes) hparams
             !! key) ->
  exists msg,
    _hyperception_single input_shape num_classes mode hparams =
      Raise (TypeError msg).
Proof using Type.
  intros Hk [v Hv]. eexists. unfold _hyperception_single, keyword_call.
  cbn [existsb fst snd]. unfold has_key.
  destruct Hk as [-> | ->]; rewrite Hv.
  - reflexivity.
  - now destruct (_ !! "input_shape").
Qed.

Lemma bind_Ok_r {A : Type} (r : result A) : bind r Ok = r.
Proof using Type. now destruct r. Qed.

(** X10.  [hyperception_single_model] is [_hyperception_single] on the same
    shape and class count: a "mode" among its keyword hyperparameters is
    taken as the mode and does not reach the hyperparameters. *)
Theorem single_model_is_single (input_shape num_classes : value)
    (hparams : dict) :
  hparams !! "input_shape" = None ->
  hparams !! "num_classes" = None ->
  hyperception_single_model input_shape num_classes hparams =
    _hyperception_single input_shape num_classes
      (default (VStr "full") (hparams !! "mode")) (delete "mode" hparams).
Proof using Type.
  intros Hs Hn. unfold hyperception_single_model.
  change (fun i : model => Ok i) with (@Ok model). rewrite bind_Ok_r.
  unfold partial_call, hyperception_single_fn, update.
  cbn [func args keywords app]. rewrite (left_id_L ∅ (∪)).
  unfold _hyperception_single_fn, no_keyword, has_key.
  rewrite Hs, Hn. cbn [bind]. unfold take_keyword.
  destruct (hparams !! "mode") as [m|] eqn:Hm; cbn [bind default].
  - reflexivity.
  - now rewrite delete_id.
Qed.

(** X11.  The closure of [hyperception] accepts keywords when it is called:
    they win over the stored hyperparameters, and the result is the one of
    the builder on the merged overrides.  A positional argument at the call
    is one too many and raises [TypeError]. *)
Theorem closure_call_keywords (input_shape num_classes : value)
    (hparams fkeywords : dict) :
  (update hparams fkeywords !! "input_shape" = None ->
   update hparams fkeywords !! "num_classes" = None ->
   partial_call (hyperception input_shape num_classes hparams) [] fkeywords =
     _hyperception input_shape num_classes (update hparams fkeywords)) /\
  (forall a fargs,
     exists msg,
       partial_call (hyperception input_shape num_classes hparams)
         (a :: fargs) fkeywords =
       Raise (TypeError msg)).
Proof using Type.
  split.
  - intros Hs Hn. unfold partial_call, hyperception.
    cbn [func args keywords app]. unfold _hyperception_fn, no_keyword, has_key.
    now rewrite Hs, Hn.
  - intros a fargs. eexists. reflexivity.
Qed.

(** X12.  Every model the builder returns, whatever the overrides, takes
    the [Input] of the shape argument, ends in the softmax [Dense] layer
    with as many units as classes, has five layers besides the residual
    and dense blocks the two counts ask for, and is compiled with an
    optimizer, the categorical cross-entropy loss and the accuracy
    metric. *)
Theorem returned_model_shape (input_shape num_classes : value)
    (hparams : dict) (m : model) :
  _hyperception input_shape num_classes hparams = Ok m ->
  let hp := resolve_hparams input_shape num_classes hparams in
  exists N K n k body,
    hp !! "num_residual_blocks" = Some N /\ range N = Ok n /\
    hp !! "num_dense_layers" = Some K /\ range K = Ok k /\
    inputs m = [Input input_shape] /\
    outputs m = Input input_shape :: body ++ [Dense num_classes "softmax"] /\
    length (outputs m) = (5 + n + k)%nat /\
    is_Some (m_optimizer m) /\
    m_loss m = Some "categorical_crossentropy" /\
    m_metrics m = ["accuracy"].
Proof using Type.
  intros H hp. apply _hyperception_Ok in H. fold hp in H.
  destruct H as (p & n & d & k & o & Hp & Hn & _ & Hk & _ & ->).
  apply read_hparams_Ok in Hp.
  destruct Hp as (_ & _ & _ & _ & _ & _ & HN & _ & HK & _).
  exists (num_residual_blocks p), (num_dense_layers p), n, k.
  eexists. split; [exact HN|]. split; [exact Hn|]. split; [exact HK|].
  split; [exact Hk|].
  cbn [inputs outputs m_optimizer m_loss m_metrics compile Model].
  split; [reflexivity|]. split.
  { unfold chain. cbn [app]. f_equal.
    rewrite !app_comm_cons, !app_assoc. reflexivity. }
  split.
  { unfold chain. rewrite !length_app, !repeat_length. simpl. lia. }
  split; [eauto|]. split; reflexivity.
Qed.

(** X13.  Resolution is idempotent: passing an already resolved mapping as
    the overrides resolves to the same mapping, so the builder gives the
    same result on it. *)
Theorem resolve_hparams_idempotent (input_shape num_classes : value)
    (hparams : dict) :
  resolve_hparams input_shape num_classes
    (resolve_hparams input_shape num_classes hparams) =
  resolve_hparams input_shape num_classes hparams /\
  _hyperception input_shape num_classes
    (resolve_hparams input_shape num_classes hparams) =
  _hyperception input_shape num_classes hparams.
Proof using Type.
  assert (E : resolve_hparams input_shape num_classes
                (resolve_hparams input_shape num_classes hparams) =
              resolve_hparams input_shape num_classes hparams).
  { rewrite !resolve_hparams_union.
    rewrite <- (assoc_L (∪)). now rewrite (idemp_L (∪)). }
  split; [exact E|]. unfold _hyperception. now rewrite E.
Qed.






End Hyperception.

(** C9, amended.  Loading the module runs twelve imports and five
    function definitions and nothing else: no top-level statement is an
    invocation, five functions are defined and no call is made. *)
Theorem load_only_defines :
  Forall (fun stmt => match stmt with Expr _ => False | _ => True end)
    hyperception_py /\
  functions (load hyperception_py) =
    ["hyperception"; "hyperception_single_fn"; "hyperception_single_model";
     "_hyperception"; "_hyperception_single"] /\
  invocations (load hyperception_py) = [].
Proof.
  split; [|split; reflexivity].
  unfold hyperception_py. repeat (constructor; [exact I|]). constructor.
Qed.

(** C9 as specified does not hold: loading the module executes no
    module-level invocation. *)
Lemma load_makes_no_invocation :
  ~ exists callee, In callee (invocations (load hyperception_py)).
Proof. intros [callee H]. exact H. Qed.

(** ** The theorems at the example mapping *)

Lemma unsupported_optimizer_error_witness :
  _hyperception example_defaults example_shape (VInt 10) example_override =
    Raise (unsupported_error (VStr "xyz")) /\
  reports (unsupported_error (VStr "xyz")) (VStr "xyz").
Proof.
  apply (proj1 (unsupported_optimizer_error example_defaults example_defaults
                  example_shape (VInt 10) example_override)
           example_params_xyz example_graph).
  - vm_compute. reflexivity.
  - vm_compute. reflexivity.
  - unfold supported. simpl. intros [H | [H | H]]; discriminate H.
Defined.

Lemma merge_step_selection_witness :
  _hyperception example_defaults example_shape (VInt 10) ∅ = Ok example_model /\
  List.filter is_reduction (outputs example_model) = [GlobalAveragePooling2D].
Proof.
  assert (H : _hyperception example_defaults example_shape (VInt 10) ∅
              = Ok example_model) by (vm_compute; reflexivity).
  split; [exact H|].
  destruct (merge_step_selection example_defaults example_shape (VInt 10) ∅
              example_model H) as (dmt & Hd & _ & Ha & _).
  apply Ha. vm_compute in Hd. congruence.
Defined.

Lemma residual_stage_witness :
  _hyperception example_defaults example_shape (VInt 10) ∅ = Ok example_model /\
  exists act after,
    outputs example_model =
      [Input example_shape;
       conv (VInt 64) (VTuple [VInt 3; VInt 3]) act (VTuple [VInt 2; VInt 2])]
      ++ repeat (residual (VInt 128) act false) 3
      ++ residual (VInt 256) act true :: after.
Proof.
  assert (H : _hyperception example_defaults example_shape (VInt 10) ∅
              = Ok example_model) by (vm_compute; reflexivity).
  split; [exact H|].
  destruct (residual_stage example_defaults example_shape (VInt 10) ∅
              example_model H)
    as (c & ks & act & st & N & F & n & d & after
        & HN & HF & Hn & Hd & Hout & _).
  vm_compute in HN, HF. injection HN as <-. injection HF as <-.
  vm_compute in Hn, Hd. injection Hn as <-. injection Hd as <-.
  exists act, after.
  assert (E : conv c ks act st =
              conv (VInt 64) (VTuple [VInt 3; VInt 3]) act
                (VTuple [VInt 2; VInt 2])).
  { vm_compute in Hout. congruence. }
  rewrite <- E. exact Hout.
Defined.

Lemma optimizer_configuration_witness :
  _hyperception example_defaults example_shape (VInt 10) ∅ =
    Ok (compile example_graph (Adam (VFloat 0.125))
          "categorical_crossentropy" ["accuracy"]).
Proof.
  assert (Hp : read_hparams
                 (resolve_hparams example_defaults example_shape (VInt 10) ∅)
               = Ok example_params) by (vm_compute; reflexivity).
  assert (Hg : build_graph example_shape (VInt 10) example_params
               = Ok example_graph) by (vm_compute; reflexivity).
  destruct (optimizer_configuration example_defaults example_shape (VInt 10)
              ∅ example_params example_graph Hp Hg) as [Hadam _].
  apply Hadam.
  - reflexivity.
  - vm_compute. reflexivity.
Defined.

Lemma default_build_succeeds_witness :
  exists m body,
    _hyperception example_defaults example_shape (VInt 10) ∅ = Ok m /\
    inputs m = [Input example_shape] /\
    outputs m = Input example_shape :: body ++ [Dense (VInt 10) "softmax"] /\
    is_Some (m_optimizer m) /\
    m_loss m = Some "categorical_crossentropy" /\
    m_metrics m = ["accuracy"].
Proof.
  apply (default_build_succeeds example_defaults example_shape (VInt 10)).
  unfold usable, example_defaults.
  split; [|split; [|split; [|split]]].
  - repeat (apply List.Forall_cons; [vm_compute; eauto|]).
    apply List.Forall_nil.
  - exists 128%Z. vm_compute. reflexivity.
  - exists 3%Z. vm_compute. reflexivity.
  - exists 2%Z. vm_compute. reflexivity.
  - left. vm_compute. reflexivity.
Defined.

Lemma dense_stage_witness :
  _hyperception example_defaults example_shape (VInt 10) ∅ = Ok example_model /\
  exists before r,
    is_reduction r = true /\
    outputs example_model =
      before ++ [r]
      ++ repeat (dense (VInt 10) (VStr "relu") (VBool true) (VFloat 0.5)) 2
      ++ [Dense (VInt 10) "softmax"].
Proof.
  assert (H : _hyperception example_defaults example_shape (VInt 10) ∅
              = Ok example_model) by (vm_compute; reflexivity).
  split; [exact H|].
  destruct (dense_stage example_defaults example_shape (VInt 10) ∅
              example_model H)
    as (before & r & act & bn & dr & M & k
        & HM & Hact & Hbn & Hdr & Hk & Hr & _ & Hout & _).
  vm_compute in HM, Hact, Hbn, Hdr.
  injection HM as <-. injection Hact as <-. injection Hbn as <-.
  injection Hdr as <-. vm_compute in Hk. injection Hk as <-.
  exists before, r. split; [exact Hr | exact Hout].
Defined.

Lemma deferred_construction_witness :
  partial_call
    (hyperception example_defaults example_shape (VInt 10) example_override)
    [] ∅ =
  _hyperception example_defaults example_shape (VInt 10) example_override.
Proof.
  apply (proj2 (deferred_construction example_defaults example_shape (VInt 10)
                  example_override)).
  - vm_compute. reflexivity.
  - vm_compute. reflexivity.
Defined.

(** ** The further properties at example inputs *)

Lemma missing_key_error_witness :
  _hyperception example_no_activation example_shape (VInt 10) ∅ =
    Raise (KeyError "activation").
Proof.
  apply (proj1 (missing_key_error example_no_activation example_shape
                  (VInt 10) ∅)).
  vm_compute. reflexivity.
Defined.


Lemma optimizer_key_missing_witness :
  _hyperception example_no_momentum example_shape (VInt 10)
    {[ "optimizer" := VStr "sgd" ]} = Raise (KeyError "momentum").
Proof.
  assert (Hp : read_hparams
                 (resolve_hparams example_no_momentum example_shape (VInt 10)
                    {[ "optimizer" := VStr "sgd" ]})
               = Ok example_params_sgd) by (vm_compute; reflexivity).
  assert (Hg : build_graph example_shape (VInt 10) example_params_sgd
               = Ok example_graph) by (vm_compute; reflexivity).
  apply (optimizer_key_missing example_no_momentum example_shape (VInt 10)
           {[ "optimizer" := VStr "sgd" ]} example_params_sgd example_graph
           Hp Hg).
  - right. left. reflexivity.
  - vm_compute. reflexivity.
Defined.

Lemma build_depends_on_consumed_keys_witness :
  _hyperception example_defaults example_shape (VInt 10)
    {[ "verbose" := VInt 1 ]} =
  _hyperception example_defaults example_shape (VInt 10) ∅.
Proof.
  apply (build_depends_on_consumed_keys example_defaults example_shape
           (VInt 10) {[ "verbose" := VInt 1 ]} ∅).
  - intros key Hin. unfold required_keys in Hin. simpl in Hin.
    repeat (destruct Hin as [<- | Hin]; [vm_compute; reflexivity|]).
    destruct Hin.
  - intros o key Ho Hin. vm_compute in Ho. injection Ho as <-.
    simpl in Hin. destruct Hin as [<- | []]. vm_compute. reflexivity.
Defined.

Lemma unknown_override_no_effect_witness :
  _hyperception example_defaults example_shape (VInt 10)
    (<["verbose" := VInt 1]> example_override) =
  _hyperception example_defaults example_shape (VInt 10) example_override.
Proof.
  apply (unknown_override_no_effect example_defaults example_shape (VInt 10)
           example_override "verbose" (VInt 1)).
  unfold consumed_keys, required_keys. simpl. intros H.
  repeat (destruct H as [H | H]; [discriminate H|]). destruct H.
Defined.

Lemma unused_optimizer_parameters_witness :
  _hyperception example_defaults example_shape (VInt 10)
    (<["momentum" := VNone]> (<["learning_rate_decay" := VStr "none"]> ∅)) =
  _hyperception example_defaults example_shape (VInt 10) ∅.
Proof.
  apply (proj1 (unused_optimizer_parameters example_defaults example_shape
                  (VInt 10) ∅ VNone (VStr "none"))).
  vm_compute. reflexivity.
Defined.

Lemma count_through_range_witness :
  _hyperception example_defaults example_shape (VInt 10)
    (<["num_residual_blocks" := VInt (-2)]> ∅) =
  _hyperception example_defaults example_shape (VInt 10)
    (<["num_residual_blocks" := VInt 0]> ∅).
Proof.
  apply (proj1 (count_through_range example_defaults example_shape (VInt 10)
                  ∅ "num_residual_blocks" (or_introl eq_refl))).
  lia.
Defined.

Lemma single_resolution_witness :
  _hyperception_single example_defaults example_defaults example_shape
    (VInt 10) (VStr "full") example_override =
  build example_shape (VInt 10)
    (update (example_defaults example_shape (VInt 10))
       (update (example_defaults example_shape (VInt 10)) example_override)).
Proof.
  apply (single_resolution example_defaults example_defaults example_shape
           (VInt 10) (VStr "full") example_override).
  - vm_compute. reflexivity.
  - vm_compute. reflexivity.
Defined.

Lemma single_reserved_key_witness :
  exists msg,
    _hyperception_single example_defaults example_reserved_fixed example_shape
      (VInt 10) (VStr "full") ∅ = Raise (TypeError msg).
Proof.
  apply (single_reserved_key example_defaults example_reserved_fixed
           example_shape (VInt 10) (VStr "full") ∅ "num_classes").
  - right. reflexivity.
  - vm_compute. eauto.
Defined.

Lemma single_model_is_single_witness :
  hyperception_single_model example_defaults example_defaults example_shape
    (VInt 10) {[ "mode" := VStr "fast" ]} =
  _hyperception_single example_defaults example_defaults example_shape
    (VInt 10)
    (default (VStr "full")
       (({[ "mode" := VStr "fast" ]} : dict) !! "mode"))
    (delete "mode" {[ "mode" := VStr "fast" ]}).
Proof.
  apply (single_model_is_single example_defaults example_defaults
           example_shape (VInt 10) {[ "mode" := VStr "fast" ]}).
  - vm_compute. reflexivity.
  - vm_compute. reflexivity.
Defined.

Lemma closure_call_keywords_witness :
  partial_call
    (hyperception example_defaults example_shape (VInt 10) example_override)
    [] {[ "optimizer" := VStr "sgd" ]} =
  _hyperception example_defaults example_shape (VInt 10)
    (update example_override {[ "optimizer" := VStr "sgd" ]}).
Proof.
  apply (proj1 (closure_call_keywords example_defaults example_shape (VInt 10)
                  example_override {[ "optimizer" := VStr "sgd" ]})).
  - vm_compute. reflexivity.
  - vm_compute. reflexivity.
Defined.

Lemma returned_model_shape_witness :
  _hyperception example_defaults example_shape (VInt 10) ∅ = Ok example_model /\
  length (outputs example_model) = 10%nat.
Proof.
  assert (H : _hyperception example_defaults example_shape (VInt 10) ∅
              = Ok example_model) by (vm_compute; reflexivity).
  split; [exact H|].
  destruct (returned_model_shape example_defaults example_shape (VInt 10) ∅
              example_model H)
    as (N & K & n & k & body & HN & Hn & HK & Hk & _ & _ & Hlen & _).
  vm_compute in HN, HK. injection HN as <-. injection HK as <-.
  vm_compute in Hn, Hk. injection Hn as <-. injection Hk as <-.
  exact Hlen.
Defined.

